(** * AnosysLoggers: field remapping, span flattening and attribute
    reconstruction

    A shallow embedding of [AnosysLoggers/tracing.py] and
    [AnosysLoggers/decorator.py].

    - Python values are the JSON-shaped trees [pyval]; floating point
      numbers are outside the model.
    - [set_nested] and [deserialize_attributes] mutate dicts and lists
      through references, so they run over an explicit store [heap] of
      objects addressed by [VRef].
    - Exceptions are the error side of [res].
    - The services of the Python runtime the code calls but does not
      define ([json.loads], [json.dumps], [str] of a container,
      [datetime.fromisoformat]) are fields of [PyLib], over which the
      development is parametric; [Mini.py] is a small concrete instance. *)

From Stdlib Require Import ZArith Lia Ascii String.
From stdpp Require Import base option list strings gmap pretty.

Local Open Scope char_scope.
Local Open Scope string_scope.
Local Open Scope Z_scope.

Set Warnings "-register-all".

(** ** Exceptions *)

Inductive exn : Type :=
  | IndexError
  | TypeError
  | AttributeError
  | ValueError (msg : string)
  | JSONDecodeError
  | HeapFault.   (* a reference outside the store: no Python exception *)

(** [json.JSONDecodeError] is a subclass of [ValueError]. *)
Definition is_ValueError (e : exn) : bool :=
  match e with
  | ValueError _ | JSONDecodeError => true
  | _ => false
  end.

Inductive res (A : Type) : Type :=
  | Ok (a : A)
  | Raise (e : exn).
Arguments Ok {A} a.
Arguments Raise {A} e.

Global Instance res_ret : MRet res := fun A a => Ok a.
Global Instance res_bind : MBind res := fun A B k m =>
  match m with
  | Ok a => k a
  | Raise e => Raise e
  end.

Definition raises {A} (m : res A) : bool :=
  match m with Ok _ => false | Raise _ => true end.

(** ** Strings *)

(** The double quote character. *)
Definition dquote : ascii := ascii_of_nat 34.

Module Str.

(** ASCII characters for which [str.isspace] holds. *)
Definition isspace (c : ascii) : bool :=
  let n := nat_of_ascii c in
  ((9 <=? n)%nat && (n <=? 13)%nat) || ((28 <=? n)%nat && (n <=? 32)%nat).

Fixpoint lstrip (s : string) : string :=
  match s with
  | String c s' => if isspace c then lstrip s' else s
  | EmptyString => EmptyString
  end.

Definition rstrip (s : string) : string :=
  String.rev (lstrip (String.rev s)).

(** [s.strip()] *)
Definition strip (s : string) : string := rstrip (lstrip s).

(** [s.startswith(c)] for a one-character prefix. *)
Definition startswith (c : ascii) (s : string) : bool :=
  match s with
  | String c' _ => bool_decide (c' = c)
  | EmptyString => false
  end.

(** [s.startswith('{') or s.startswith('[')] *)
Definition looks_like_json (s : string) : bool :=
  startswith "{" s || startswith "[" s.

Fixpoint split_go (sep : ascii) (cur : string) (s : string) : list string :=
  match s with
  | EmptyString => [String.rev cur]
  | String c s' =>
      if bool_decide (c = sep) then String.rev cur :: split_go sep EmptyString s'
      else split_go sep (String c cur) s'
  end.

(** [s.split(sep)] for a one-character separator: never empty. *)
Definition split (sep : ascii) (s : string) : list string :=
  split_go sep EmptyString s.

Definition digit (c : ascii) : option Z :=
  let n := nat_of_ascii c in
  if ((48 <=? n)%nat && (n <=? 57)%nat) then Some (Z.of_nat n - 48) else None.

(** Digits with single underscores between them, as [int] accepts;
    [prev] tells whether the previous character was a digit. *)
Fixpoint digits_go (acc : Z) (prev : bool) (s : string) : option Z :=
  match s with
  | EmptyString => if prev then Some acc else None
  | String c s' =>
      match digit c with
      | Some d => digits_go (10 * acc + d) true s'
      | None =>
          if bool_decide (c = "_"%char) && prev then
            match s' with
            | String c' _ =>
                if is_Some_dec (digit c') then digits_go acc false s' else None
            | EmptyString => None
            end
          else None
      end
  end.

(** [int(s)] on ASCII text: surrounding whitespace, an optional sign,
    decimal digits.  [None] stands for [ValueError]. *)
Definition to_int (s : string) : option Z :=
  match strip s with
  | String "-" s' => Z.opp <$> digits_go 0 false s'
  | String "+" s' => digits_go 0 false s'
  | s' => digits_go 0 false s'
  end.

(** [str(n)] for an integer. *)
Definition of_int (n : Z) : string := pretty n.

End Str.

(** Python indexing [l[i]]: a negative index counts from the end. *)
Definition py_index {A} (l : list A) (i : Z) : res A :=
  let i' := if i <? 0 then i + Z.of_nat (length l) else i in
  if i' <? 0 then Raise IndexError
  else match l !! Z.to_nat i' with
       | Some a => Ok a
       | None => Raise IndexError
       end.

(** Python item assignment [l[i] = x] on a list. *)
Definition py_setitem {A} (l : list A) (i : Z) (x : A) : res (list A) :=
  let i' := if i <? 0 then i + Z.of_nat (length l) else i in
  if (i' <? 0) || (Z.of_nat (length l) <=? i') then Raise IndexError
  else Ok (<[Z.to_nat i' := x]> l).

(** ** Dictionaries: insertion ordered, keys are strings *)

Module Dict.
Section Dict.
Context {V : Type}.

Definition t := list (string * V).

Fixpoint get (d : list (string * V)) (k : string) : option V :=
  match d with
  | [] => None
  | (k', v) :: d' => if String.eqb k' k then Some v else get d' k
  end.

Definition mem (d : list (string * V)) (k : string) : bool :=
  match get d k with Some _ => true | None => false end.

(** [d[k] = v]: an existing key keeps its position, a new one goes last. *)
Fixpoint set (d : list (string * V)) (k : string) (v : V) : list (string * V) :=
  match d with
  | [] => [(k, v)]
  | (k', v') :: d' =>
      if String.eqb k' k then (k', v) :: d' else (k', v') :: set d' k v
  end.

End Dict.
Arguments t V : clear implicits.
End Dict.

(** ** Values *)

(** JSON-shaped Python values, as [json.loads] builds them. *)
Inductive pyval : Type :=
  | PNone
  | PBool (b : bool)
  | PInt (n : Z)
  | PStr (s : string)
  | PList (l : list pyval)
  | PDict (d : list (string * pyval)).

(** Truth value of an object, as [if x], [x or y] and [not x] take it. *)
Definition truthy (v : pyval) : bool :=
  match v with
  | PNone => false
  | PBool b => b
  | PInt n => negb (n =? 0)
  | PStr s => negb (String.eqb s EmptyString)
  | PList l => match l with [] => false | _ => true end
  | PDict d => match d with [] => false | _ => true end
  end.

(** The Python runtime as far as the code relies on it. *)
Record PyLib : Type := {
  json_loads : string -> option pyval;      (* [None]: JSONDecodeError *)
  json_dumps : pyval -> string;             (* [json.dumps(v)] *)
  json_dumps_indent : pyval -> string;      (* [json.dumps(v, indent=2)] *)
  str_container : pyval -> string;          (* [str(v)] of a list or dict *)
  iso_timestamp : string -> option Z        (* [int(fromisoformat(s).timestamp())],
                                               [None]: ValueError *)
}.

(** ** The store *)

(** A value held in a variable or a container slot: containers are
    held by reference. *)
Inductive val : Type :=
  | VNone
  | VBool (b : bool)
  | VInt (n : Z)
  | VStr (s : string)
  | VRef (l : nat).

Inductive obj : Type :=
  | ODict (d : list (string * val))
  | OList (l : list val).

Abbreviation heap := (list obj).

Definition alloc (h : heap) (o : obj) : heap * val :=
  ((h ++ [o])%list, VRef (List.length h)).

(** [isinstance(v, list)] *)
Definition is_list (h : heap) (v : val) : bool :=
  match v with
  | VRef l => match h !! l with Some (OList _) => true | _ => false end
  | _ => false
  end.

(** [isinstance(v, dict)] *)
Definition is_dict (h : heap) (v : val) : bool :=
  match v with
  | VRef l => match h !! l with Some (ODict _) => true | _ => false end
  | _ => false
  end.

(** [isinstance(v, (dict, list))] *)
Definition is_container (h : heap) (v : val) : bool :=
  is_dict h v || is_list h v.

Section AllocChildren.
Context (alloc_child : heap -> pyval -> heap * val).

(** The elements of a list, left to right. *)
Fixpoint alloc_elems (h : heap) (l : list pyval) : heap * list val :=
  match l with
  | [] => (h, [])
  | t :: l' =>
      let '(h1, v) := alloc_child h t in
      let '(h2, vs) := alloc_elems h1 l' in
      (h2, v :: vs)
  end.

(** The values of a dict, in the order of its keys. *)
Fixpoint alloc_items (h : heap) (d : list (string * pyval))
  : heap * list (string * val) :=
  match d with
  | [] => (h, [])
  | (k, t) :: d' =>
      let '(h1, v) := alloc_child h t in
      let '(h2, kvs) := alloc_items h1 d' in
      (h2, (k, v) :: kvs)
  end.

End AllocChildren.

(** Builds a fresh object graph for a tree. *)
Fixpoint alloc_tree (h : heap) (t : pyval) : heap * val :=
  match t with
  | PNone => (h, VNone)
  | PBool b => (h, VBool b)
  | PInt n => (h, VInt n)
  | PStr s => (h, VStr s)
  | PList l =>
      let '(h', vs) := alloc_elems alloc_tree h l in
      alloc h' (OList vs)
  | PDict d =>
      let '(h', kvs) := alloc_items alloc_tree h d in
      alloc h' (ODict kvs)
  end.

(** Reads the tree below a value back from the store. *)
Fixpoint reify (fuel : nat) (h : heap) (v : val) : option pyval :=
  match v with
  | VNone => Some PNone
  | VBool b => Some (PBool b)
  | VInt n => Some (PInt n)
  | VStr s => Some (PStr s)
  | VRef l =>
      match fuel with
      | O => None
      | S fuel' =>
          match h !! l with
          | Some (OList vs) => PList <$> mapM (reify fuel' h) vs
          | Some (ODict kvs) =>
              PDict <$> mapM (fun kv => pair kv.1 <$> reify fuel' h kv.2) kvs
          | None => None
          end
      end
  end.

(** ** Nested attribute reconstruction ([tracing.py]) *)

Section Reconstructor.
Context (py : PyLib).

Definition list_of (h : heap) (l : nat) : res (list val) :=
  match h !! l with
  | Some (OList vs) => Ok vs
  | _ => Raise HeapFault
  end.

(** [n] rounds of [current.append(x)], [x] built anew by [mk] each time. *)
Fixpoint append_fresh (mk : heap -> heap * val) (n : nat) (h : heap) (l : nat)
  : res heap :=
  match n with
  | O => Ok h
  | S n' =>
      let '(h1, x) := mk h in
      vs ← list_of h1 l;
      append_fresh mk n' (<[l := OList (vs ++ [x])%list]> h1) l
  end.

(** [while len(current) <= idx: current.append(x)] *)
Definition grow (mk : heap -> heap * val) (h : heap) (l : nat) (idx : Z)
  : res heap :=
  vs ← list_of h l;
  append_fresh mk (Z.to_nat (idx + 1 - Z.of_nat (List.length vs))) h l.

Definition new_dict (h : heap) : heap * val := alloc h (ODict []).
Definition no_object (h : heap) : heap * val := (h, VNone).

(** The block
<<
    if not isinstance(current, list):
        current_parent = current
        current = []
        if isinstance(current_parent, dict):
            current_parent[parts[key]] = current
>>
    where [key] is [i - 1] inside the loop and [-2] at the final
    segment.  [current_parent] is bound to the container that was
    current, so it is that container which receives the new list.
    Returns the location of the list that is current afterwards. *)
Definition as_list (parts : list string) (key : Z) (h : heap) (current : val)
  : res (heap * nat) :=
  if is_list h current then
    match current with
    | VRef l => Ok (h, l)
    | _ => Raise HeapFault
    end
  else
    let current_parent := current in
    let '(h1, fresh) := alloc h (OList []) in
    match current_parent with
    | VRef p =>
        match h1 !! p with
        | Some (ODict d) =>
            k ← py_index parts key;
            Ok (<[p := ODict (Dict.set d k fresh)]> h1, List.length h)
        | Some (OList _) => Raise HeapFault
        | None => Raise HeapFault
        end
    | _ => Ok (h1, List.length h)
    end.

(** The [except ValueError] branch of the loop body: only a dict
    supports both [part in current] and [current[part]] with a string. *)
Definition enter_key (h : heap) (current : val) (part : string)
  : res (heap * val) :=
  match current with
  | VRef l =>
      match h !! l with
      | Some (ODict d) =>
          let create :=
            let '(h1, fresh) := new_dict h in
            Ok (<[l := ODict (Dict.set d part fresh)]> h1, fresh) in
          match Dict.get d part with
          | Some v => if is_container h v then Ok (h, v) else create
          | None => create
          end
      | Some (OList _) => Raise TypeError
      | None => Raise HeapFault
      end
  | _ => Raise TypeError
  end.

(** [while len(current) <= idx: current.append({})] and
    [current = current[idx]], on the list at [l]. *)
Definition enter_index (h : heap) (l : nat) (idx : Z) : res (heap * val) :=
  h' ← grow new_dict h l idx;
  vs ← list_of h' l;
  v ← py_index vs idx;
  Ok (h', v).

(** One iteration of [for i, part in enumerate(parts[:-1])]. *)
Definition walk_step (parts : list string) (i : nat) (part : string)
    (st : heap * val) : res (heap * val) :=
  let '(h, current) := st in
  match Str.to_int part with
  | Some idx =>
      '(h1, l) ← as_list parts (Z.of_nat i - 1) h current;
      enter_index h1 l idx
  | None => enter_key h current part
  end.

Fixpoint walk (parts : list string) (i : nat) (todo : list string)
    (st : heap * val) : res (heap * val) :=
  match todo with
  | [] => Ok st
  | part :: todo' =>
      st' ← walk_step parts i part st;
      walk parts (S i) todo' st'
  end.

(** [json.loads] of a string value that looks like JSON; anything
    else, and text that does not parse, is kept. *)
Definition parse_value (h : heap) (value : val) : heap * val :=
  match value with
  | VStr s =>
      if Str.looks_like_json (Str.strip s) then
        match json_loads py s with
        | Some t => alloc_tree h t
        | None => (h, value)
        end
      else (h, value)
  | _ => (h, value)
  end.

(** [while len(current) <= final_key: current.append(None)], the
    parse of [value], and [current[final_key] = value], on the list
    at [l]. *)
Definition store_at_index (h : heap) (l : nat) (k : Z) (value : val)
  : res heap :=
  h1 ← grow no_object h l k;
  let '(h2, value') := parse_value h1 value in
  vs ← list_of h2 l;
  vs' ← py_setitem vs k value';
  Ok (<[l := OList vs']> h2).

(** The parse of [value] and [current[final_key] = value] for a key
    that is not an integer. *)
Definition store_at_key (h : heap) (current : val) (final_key : string)
    (value : val) : res heap :=
  let '(h1, value') := parse_value h value in
  match current with
  | VRef l =>
      match h1 !! l with
      | Some (ODict d) => Ok (<[l := ODict (Dict.set d final_key value')]> h1)
      | Some (OList _) => Raise TypeError
      | None => Raise HeapFault
      end
  | _ => Raise TypeError
  end.

(** The code after the loop, from [final_key = parts[-1]] on. *)
Definition set_final (parts : list string) (h : heap) (current : val)
    (value : val) : res heap :=
  final_key ← py_index parts (-1);
  match Str.to_int final_key with
  | Some k =>
      '(h1, l) ← as_list parts (-2) h current;
      store_at_index h1 l k value
  | None => store_at_key h current final_key value
  end.

Definition set_nested_parts (parts : list string) (h : heap) (obj : val)
    (value : val) : res heap :=
  '(h1, current) ← walk parts 0 (removelast parts) (h, obj);
  set_final parts h1 current value.

Definition set_nested (h : heap) (obj : val) (path : string) (value : val)
  : res heap :=
  set_nested_parts (Str.split "." path) h obj value.

Fixpoint set_all (h : heap) (new_attrs : val) (items : list (string * val))
  : res heap :=
  match items with
  | [] => Ok h
  | (key, value) :: items' =>
      h' ← set_nested h new_attrs key value;
      set_all h' new_attrs items'
  end.

(** [deserialize_attributes(obj)]; the store it returns holds the
    updated [obj].  The items of the flat dict are read once: no
    write of [set_nested] reaches that dict itself. *)
Definition deserialize_attributes (h : heap) (obj : val) : res heap :=
  match obj with
  | VRef o =>
      match h !! o with
      | Some (ODict d) =>
          let '(h0, flat_attrs) :=
            match Dict.get d "attributes" with
            | Some v => (h, v)
            | None => new_dict h
            end in
          let '(h1, new_attrs) := new_dict h0 in
          items ←
            match flat_attrs with
            | VRef f =>
                match h1 !! f with
                | Some (ODict fd) => Ok fd
                | Some (OList _) => Raise AttributeError
                | None => Raise HeapFault
                end
            | _ => Raise AttributeError
            end;
          h2 ← set_all h1 new_attrs items;
          match h2 !! o with
          | Some (ODict d') =>
              Ok (<[o := ODict (Dict.set d' "attributes" new_attrs)]> h2)
          | _ => Raise HeapFault
          end
      | Some (OList _) => Raise AttributeError
      | None => Raise HeapFault
      end
  | _ => Raise AttributeError
  end.

End Reconstructor.

(** ** Key remapper ([reassign], the same text in both modules) *)

Section Remapper.
Context (py : PyLib).

(** [str(v)] *)
Definition py_str (v : pyval) : string :=
  match v with
  | PNone => "None"
  | PBool true => "True"
  | PBool false => "False"
  | PInt n => Str.of_int n
  | PStr s => s
  | PList _ | PDict _ => str_container py v
  end.

(** [f"cvs{cvs_index}"] *)
Definition token (cvs_index : Z) : string := "cvs" ++ Str.of_int cvs_index.

(** [str(value) if value is not None else None] *)
Definition stringified (value : pyval) : pyval :=
  match value with
  | PNone => PNone
  | _ => PStr (py_str value)
  end.

(** The loop [for key, value in data.items()], over the state
    [(key_to_cvs, cvs_index, cvs_vars)]. *)
Fixpoint reassign_loop (key_to_cvs : gmap string string) (cvs_index : Z)
    (cvs_vars : list (string * pyval)) (items : list (string * pyval))
  : gmap string string * Z * list (string * pyval) :=
  match items with
  | [] => (key_to_cvs, cvs_index, cvs_vars)
  | (key, value) :: items' =>
      let '(key_to_cvs', cvs_index') :=
        match key_to_cvs !! key with
        | Some _ => (key_to_cvs, cvs_index)
        | None => (<[key := token cvs_index]> key_to_cvs, cvs_index + 1)
        end in
      let cvs_var := default EmptyString (key_to_cvs' !! key) in
      reassign_loop key_to_cvs' cvs_index'
        (Dict.set cvs_vars cvs_var (stringified value)) items'
  end.

(** [reassign(data, starting_index)] run on the Field Mapping
    [key_to_cvs]; returns the mapping it leaves and [cvs_vars]. *)
Definition reassign (key_to_cvs : gmap string string) (data : pyval)
    (starting_index : Z) : res (gmap string string * list (string * pyval)) :=
  data' ←
    match data with
    | PStr s =>
        match json_loads py s with
        | Some v => Ok v
        | None => Raise JSONDecodeError
        end
    | _ => Ok data
    end;
  match data' with
  | PDict d =>
      let '(key_to_cvs', _, cvs_vars) :=
        reassign_loop key_to_cvs starting_index [] d in
      Ok (key_to_cvs', cvs_vars)
  | _ => Raise (ValueError "Input must be a dict or JSON string representing a dict")
  end.


End Remapper.

(** ** Value normalisation ([to_str_or_none], [assign]) *)

Section Normalizer.
Context (py : PyLib).

Definition to_str_or_none (val : pyval) : pyval :=
  match val with
  | PNone => PNone
  | PList _ | PDict _ => PStr (json_dumps py val)
  | _ => PStr (py_str py val)
  end.

(** The value [assign] stores under [variable]. *)
Definition normalized (var_value : pyval) : pyval :=
  match var_value with
  | PNone => PNone
  | PStr s =>
      let s' := Str.strip s in
      if Str.looks_like_json s' then
        match json_loads py s' with
        | Some parsed => PStr (json_dumps py parsed)
        | None => PStr s'
        end
      else PStr s'
  | PList _ | PDict _ => PStr (json_dumps py var_value)
  | _ => var_value
  end.

Definition assign (variables : list (string * pyval)) (variable : string)
    (var_value : pyval) : list (string * pyval) :=
  Dict.set variables variable (normalized var_value).

End Normalizer.

(** ** Span flattener and exporter ([tracing.py]) *)

Module Tracing.

(** The module-level [key_to_cvs] of [tracing.py]. *)
Definition key_to_cvs : gmap string string :=
  list_to_map
    [ ("cvn1", "cvn1"); ("cvn2", "cvn2"); ("name", "otel_name");
      ("trace_id", "otel_trace_id"); ("span_id", "otel_span_id");
      ("trace_state", "otel_trace_flags");
      ("parent_id", "otel_parent_span_id");
      ("start_time", "otel_start_time"); ("end_time", "otel_end_time");
      ("kind", "otel_kind"); ("resp_id", "otel_status_message");
      ("input", "cvs1"); ("output", "cvs2"); ("tool", "cvs3");
      ("llm_tools", "cvs4"); ("llm_token_count", "cvs5");
      ("llm_output_messages", "cvs6"); ("llm_input_messages", "cvs7");
      ("llm_model_name", "cvs8"); ("llm_invocation_parameters", "cvs9");
      ("from_source", "cvs200"); ("raw", "cvs199") ].

(** Default of [reassign]'s [starting_index] in [tracing.py]. *)
Definition starting_index : Z := 20.

Section Flattener.
Context (py : PyLib).









End Flattener.
End Tracing.


(** ** Exporter adapter ([CustomConsoleExporter.export]) *)




Section Exporter.
Context (py : PyLib).

(** The network: [network n] is the outcome of the [n]-th POST of the
    process, [None] for a 2xx answer, [Some e] when [requests.post] or
    [raise_for_status] raised [e]. *)
Context (network : nat -> option string).





End Exporter.

(** ** Function decorator ([decorator.py]) *)

Module Decorator.

(** The module-level [key_to_cvs] of [decorator.py]. *)
Definition key_to_cvs : gmap string string :=
  list_to_map [ ("input", "cvs14"); ("output", "cvs15"); ("source", "cvs200") ].

(** Default of [reassign]'s [starting_index] in [decorator.py]. *)
Definition starting_index : Z := 100.

(** What a wrapped callable hands back: a JSON-shaped value, or an
    object offering [model_dump_json] or [model_dump]. *)
Inductive retval : Type :=
  | Plain (v : pyval)
  | HasModelDumpJson (dumped : string)     (* [resp.model_dump_json(indent=2)] *)
  | HasModelDump (dumped : pyval).         (* [resp.model_dump()] *)

(** One run of the wrapped callable under the redirected stdout. *)
Inductive outcome : Type :=
  | Returns (text : retval) (printed_output : string)
  | Throws (e : exn).

Definition is_true (r : retval) : bool :=
  match r with
  | Plain v => truthy v
  | _ => true
  end.

Inductive log_line : Type :=
  | Starting (source : pyval)
  | InputArgs (args : list pyval) (kwargs : list (string * pyval))
  | CapturedOutput (output : retval)
  | PostFailure (e : string)
  | Data (text : string).

Record logged : Type := {
  returned : retval;                       (* what [wrapper] returns *)
  output : retval;                         (* the local [output] *)
  variables : list (string * pyval);
  body : list (string * pyval);            (* JSON body of the POST *)
  field_map' : gmap string string;
  lines : list log_line
}.

Section Wrapper.
Context (py : PyLib).

Definition to_json_fallback (resp : retval) : string :=
  match resp with
  | HasModelDumpJson dumped => dumped
  | HasModelDump dumped => json_dumps_indent py dumped
  | Plain (PDict d) => json_dumps_indent py (PDict d)
  | Plain (PStr s) =>
      match json_loads py s with
      | Some _ => s
      | None => json_dumps_indent py (PDict [("output", PStr s)])
      end
  | Plain v =>                          (* [json.loads] raises TypeError *)
      json_dumps_indent py (PDict [("output", PStr (py_str py v))])
  end.

(** [output = text if text else printed_output.strip()] *)
Definition choose_output (text : retval) (printed_output : string) : retval :=
  if is_true text then text else Plain (PStr (Str.strip printed_output)).

(** The [wrapper] that [anosys_logger(source)] installs; [network]
    is the outcome of the POST as in the exporter. *)
Definition wrapper (network : option string) (k2c : gmap string string)
    (source : pyval) (args : list pyval) (kwargs : list (string * pyval))
    (call : outcome) : res logged :=
  match call with
  | Throws e => Raise e
  | Returns text printed_output =>
      let output := choose_output text printed_output in
      let input_array := map (to_str_or_none py) args in
      let variables := [] in
      let variables := assign py variables "source" (to_str_or_none py source) in
      let variables := assign py variables "input" (PList input_array) in
      let variables :=
        assign py variables "output" (PStr (to_json_fallback output)) in
      '(k2c', data) ← reassign py k2c (PDict variables) starting_index;
      Ok {| returned := text;
            output := output;
            variables := variables;
            body := data;
            field_map' := k2c';
            lines :=
              [Starting source; InputArgs args kwargs; CapturedOutput output]
              ++ match network with
                 | None => []
                 | Some e => [PostFailure e; Data (json_dumps_indent py (PDict variables))]
                 end |}
  end.

End Wrapper.
End Decorator.

(** ** A concrete runtime for examples

    [Mini] implements the [json] functions for the values of [pyval]:
    integers only among numbers, and of the string escapes only the
    quote and the backslash.  A date is never parsed. *)

Module Mini.

Definition join (sep : string) (l : list string) : string :=
  match l with
  | [] => EmptyString
  | x :: l' => fold_left (fun acc y => acc ++ sep ++ y) l' x
  end.

Fixpoint escape (s : string) : string :=
  match s with
  | EmptyString => EmptyString
  | String c s' =>
      if bool_decide (c = dquote) || bool_decide (c = "\"%char)
      then String "\" (String c (escape s'))
      else String c (escape s')
  end.

Definition quote (s : string) : string :=
  String dquote (escape s ++ String dquote EmptyString).

(** [json.dumps(v)] with the default separators. *)
Fixpoint dumps (v : pyval) : string :=
  match v with
  | PNone => "null"
  | PBool true => "true"
  | PBool false => "false"
  | PInt n => Str.of_int n
  | PStr s => quote s
  | PList l => "[" ++ join ", " (map dumps l) ++ "]"
  | PDict d =>
      "{" ++ join ", " (map (fun kv => let '(k, x) := kv in
                                       quote k ++ ": " ++ dumps x) d) ++ "}"
  end.

Fixpoint spaces (n : nat) : string :=
  match n with
  | O => EmptyString
  | S n' => String " " (spaces n')
  end.

Definition newline : string := String (ascii_of_nat 10) EmptyString.

(** [json.dumps(v, indent=2)] at nesting depth [level]. *)
Fixpoint dumps_at (level : nat) (v : pyval) : string :=
  let inner := newline ++ spaces (2 * S level) in
  let outer := newline ++ spaces (2 * level) in
  match v with
  | PList [] => "[]"
  | PList l =>
      "[" ++ inner ++ join ("," ++ inner) (map (dumps_at (S level)) l)
      ++ outer ++ "]"
  | PDict [] => "{}"
  | PDict d =>
      "{" ++ inner
      ++ join ("," ++ inner)
           (map (fun kv => let '(k, x) := kv in
                           quote k ++ ": " ++ dumps_at (S level) x) d)
      ++ outer ++ "}"
  | _ => dumps v
  end.

Definition is_ws (c : ascii) : bool :=
  bool_decide (c = " "%char) || bool_decide (c = ascii_of_nat 9)
  || bool_decide (c = ascii_of_nat 10) || bool_decide (c = ascii_of_nat 13).

Fixpoint skip_ws (s : string) : string :=
  match s with
  | String c s' => if is_ws c then skip_ws s' else s
  | EmptyString => EmptyString
  end.

Fixpoint strip_prefix (p s : string) : option string :=
  match p, s with
  | EmptyString, _ => Some s
  | String a p', String b s' => if bool_decide (a = b) then strip_prefix p' s' else None
  | _, _ => None
  end.

(** The text of a string literal after its opening quote. *)
Fixpoint parse_chars (acc : string) (s : string) : option (string * string) :=
  match s with
  | EmptyString => None
  | String c s' =>
      if bool_decide (c = dquote) then Some (String.rev acc, s')
      else if bool_decide (c = "\"%char) then
        match s' with
        | String e s'' =>
            if bool_decide (e = dquote) || bool_decide (e = "\"%char)
            then parse_chars (String e acc) s''
            else None
        | EmptyString => None
        end
      else if (nat_of_ascii c <? 32)%nat then None
      else parse_chars (String c acc) s'
  end.

Fixpoint parse_digits (acc : Z) (s : string) : Z * string :=
  match s with
  | String c s' =>
      match Str.digit c with
      | Some d => parse_digits (10 * acc + d) s'
      | None => (acc, s)
      end
  | EmptyString => (acc, s)
  end.

(** An integer literal: no leading zero, no fraction, no exponent. *)
Definition parse_int (s : string) : option (Z * string) :=
  let '(neg, s1) :=
    match s with
    | String "-" s' => (true, s')
    | _ => (false, s)
    end in
  match s1 with
  | String c rest =>
      match Str.digit c with
      | Some d =>
          let '(n, s2) := if d =? 0 then (0, rest) else parse_digits d rest in
          match s2 with
          | String c2 _ =>
              if is_Some_dec (Str.digit c2) then None
              else if bool_decide (c2 = "."%char) || bool_decide (c2 = "e"%char)
                      || bool_decide (c2 = "E"%char) then None
              else Some (if neg then - n else n, s2)
          | EmptyString => Some (if neg then - n else n, s2)
          end
      | None => None
      end
  | EmptyString => None
  end.

(** [item (, item)* close], the opening bracket and a possible
    immediate [close] already dealt with. *)
Fixpoint parse_seq {A} (item : string -> option (A * string)) (close : ascii)
    (n : nat) (s : string) : option (list A * string) :=
  match n with
  | O => None
  | S n' =>
      '(x, s1) ← item s;
      match skip_ws s1 with
      | String c s2 =>
          if bool_decide (c = ","%char) then
            '(xs, s3) ← parse_seq item close n' s2;
            Some (x :: xs, s3)
          else if bool_decide (c = close) then Some ([x], s2)
          else None
      | EmptyString => None
      end
  end.

Fixpoint parse_value (fuel : nat) (s : string) : option (pyval * string) :=
  match fuel with
  | O => None
  | S fuel' =>
      let member (s : string) : option ((string * pyval) * string) :=
        match skip_ws s with
        | String c s1 =>
            if bool_decide (c = dquote) then
              '(k, s2) ← parse_chars EmptyString s1;
              s3 ← strip_prefix ":" (skip_ws s2);
              '(v, s4) ← parse_value fuel' s3;
              Some ((k, v), s4)
            else None
        | EmptyString => None
        end in
      match skip_ws s with
      | String c s1 =>
          if bool_decide (c = "{"%char) then
            match strip_prefix "}" (skip_ws s1) with
            | Some s2 => Some (PDict [], s2)
            | None =>
                '(kvs, s2) ← parse_seq member "}" (String.length s1) s1;
                Some (PDict (fold_left (fun d kv => Dict.set d kv.1 kv.2) kvs []), s2)
            end
          else if bool_decide (c = "["%char) then
            match strip_prefix "]" (skip_ws s1) with
            | Some s2 => Some (PList [], s2)
            | None =>
                '(xs, s2) ← parse_seq (parse_value fuel') "]" (String.length s1) s1;
                Some (PList xs, s2)
            end
          else if bool_decide (c = dquote) then
            '(x, s2) ← parse_chars EmptyString s1;
            Some (PStr x, s2)
          else
            match strip_prefix "null" (String c s1),
                  strip_prefix "true" (String c s1),
                  strip_prefix "false" (String c s1) with
            | Some s2, _, _ => Some (PNone, s2)
            | _, Some s2, _ => Some (PBool true, s2)
            | _, _, Some s2 => Some (PBool false, s2)
            | _, _, _ =>
                '(n, s2) ← parse_int (String c s1);
                Some (PInt n, s2)
            end
      | EmptyString => None
      end
  end.

(** [json.loads(s)] *)
Definition loads (s : string) : option pyval :=
  '(v, rest) ← parse_value (S (String.length s)) s;
  match skip_ws rest with
  | EmptyString => Some v
  | _ => None
  end.

Definition repr_str (s : string) : string := "'" ++ s ++ "'".

(** [str(v)] of a container whose strings hold no quote or backslash. *)
Fixpoint repr (v : pyval) : string :=
  match v with
  | PNone => "None"
  | PBool true => "True"
  | PBool false => "False"
  | PInt n => Str.of_int n
  | PStr s => repr_str s
  | PList l => "[" ++ join ", " (map repr l) ++ "]"
  | PDict d =>
      "{" ++ join ", " (map (fun kv => let '(k, x) := kv in
                                       repr_str k ++ ": " ++ repr x) d) ++ "}"
  end.

Definition py : PyLib :=
  {| json_loads := loads;
     json_dumps := dumps;
     json_dumps_indent := dumps_at 0;
     str_container := repr;
     iso_timestamp := fun _ => None |}.

End Mini.

(** ** Notions used by the statements *)

(** [deserialize_attributes] run on a fresh record holding [flat] under
    ["attributes"]; the result is the tree the record holds there
    afterwards. *)
Definition reconstruct (py : PyLib) (flat : list (string * pyval)) : res pyval :=
  let '(h, o) := alloc_tree [] (PDict [("attributes", PDict flat)]) in
  h' ← deserialize_attributes py h o;
  match reify (S (List.length h')) h' o with
  | Some (PDict d) =>
      match Dict.get d "attributes" with
      | Some t => Ok t
      | None => Raise HeapFault
      end
  | _ => Raise HeapFault
  end.

(** [set_nested] run on a fresh empty dict; the result is that dict
    afterwards. *)
Definition set_nested_fresh (py : PyLib) (path : string) (value : pyval)
  : res pyval :=
  let '(h0, o) := new_dict [] in
  let '(h1, v) := alloc_tree h0 value in
  h' ← set_nested py h1 o path v;
  match reify (S (List.length h')) h' o with
  | Some t => Ok t
  | None => Raise HeapFault
  end.


(** The dict [reassign] works on: the input itself, or what its text
    decodes to. *)
Definition mapping_of (py : PyLib) (data : pyval)
  : option (list (string * pyval)) :=
  match data with
  | PDict d => Some d
  | PStr s =>
      match json_loads py s with
      | Some (PDict d) => Some d
      | _ => None
      end
  | _ => None
  end.

(** Inputs [reassign] takes: a dict, or text that decodes to one. *)
Definition accepted (py : PyLib) (data : pyval) : bool :=
  match data with
  | PDict _ => true
  | PStr s =>
      match json_loads py s with
      | Some (PDict _) => true
      | _ => false
      end
  | _ => false
  end.


(** The Field Mapping after a series of calls [reassign(data, start)];
    a call that raises leaves it as it was. *)
Definition after_calls (py : PyLib) (k2c : gmap string string)
    (calls : list (pyval * Z)) : gmap string string :=
  fold_left
    (fun m call =>
       match reassign py m call.1 call.2 with
       | Ok (m', _) => m'
       | Raise _ => m
       end)
    calls k2c.

(** What [print] writes for one string argument. *)
Definition printed (s : string) : string := s ++ Mini.newline.




(** Example inputs. *)

(** The text [{"a":1}]. *)
Definition json_a1 : string := "{" ++ Mini.quote "a" ++ ":1}".





(** * Properties *)

(** ** Reconstruction *)

(** Where the defect sits: when the current container is a dict, the
    new list is stored in that very dict, under [parts[key]], and not
    in the container above it. *)
Lemma as_list_stores_in_current parts key h p d k :
  h !! p = Some (ODict d) ->
  py_index parts key = Ok k ->
  as_list parts key h (VRef p)
  = Ok (<[p := ODict (Dict.set d k (VRef (List.length h)))]> (h ++ [OList []])%list,
        List.length h).
Proof.
  intros Hp Hk. unfold as_list, is_list. rewrite Hp. simpl.
  by rewrite (lookup_app_l_Some _ _ _ _ Hp), Hk.
Qed.

(** C1. Running the reconstruction on
    [{"a.b.0.c": "x", "a.b.1.c": "y"}]: the list made for segment [0]
    is stored inside the dict reached through ["b"], under the key
    ["b"] again, and the second path replaces it by a new list, so the
    result is [{"a": {"b": {"b": [{}, {"c": "y"}]}}}]. *)
Theorem reconstruct_example_nests_list_under_repeated_key (py : PyLib) :
  reconstruct py [("a.b.0.c", PStr "x"); ("a.b.1.c", PStr "y")]
  = Ok (PDict [("a", PDict [("b", PDict [("b",
          PList [PDict []; PDict [("c", PStr "y")]])])])]).
Proof. vm_compute. reflexivity. Qed.

(** C2. A path whose first segment is numeric is not skipped: with a
    second segment the target dict gains the last segment as a key,
    bound to the new list; alone, it raises [IndexError]. *)
Theorem first_numeric_segment_writes_or_raises (py : PyLib) (n : Z) :
  reconstruct py [("0.a", PInt n)]
  = Ok (PDict [("a", PList [PDict [("a", PInt n)]])])
  /\ set_nested_fresh py "0" (PInt n) = Raise IndexError.
Proof. split; vm_compute; reflexivity. Qed.

(** ** Negative indexes *)


Lemma alloc_prefix h o : h `prefix_of` (alloc h o).1.
Proof. by apply prefix_app_r. Qed.
















Lemma set_all_raise py h o key value items e :
  set_nested py h o key value = Raise e ->
  set_all py h o ((key, value) :: items) = Raise e.
Proof. intros H. simpl. by rewrite H. Qed.




(** ** The key remapper *)

Lemma dict_get_set_eq {V} (d : list (string * V)) k v :
  Dict.get (Dict.set d k v) k = Some v.
Proof.
  induction d as [| [k' v'] d IH]; simpl.
  - by rewrite String.eqb_refl.
  - destruct (String.eqb k' k) eqn:E; simpl; rewrite E; [done | exact IH].
Qed.

Lemma dict_set_keys {V} (d : list (string * V)) k v t :
  t ∈ (Dict.set d k v).*1 <-> t = k \/ t ∈ d.*1.
Proof.
  induction d as [| [k' v'] d IH]; simpl.
  - set_solver.
  - destruct (String.eqb k' k) eqn:E; simpl.
    + apply String.eqb_eq in E as ->. rewrite !elem_of_cons. simpl. tauto.
    + rewrite !elem_of_cons, IH. tauto.
Qed.

Lemma reassign_dict py k2c d start :
  reassign py k2c (PDict d) start
  = Ok ((reassign_loop py k2c start [] d).1.1, (reassign_loop py k2c start [] d).2).
Proof.
  unfold reassign. simpl. by destruct (reassign_loop py k2c start [] d) as [[? ?] ?].
Qed.

Lemma reassign_loop_mono py items : forall k2c idx vars,
  k2c ⊆ (reassign_loop py k2c idx vars items).1.1.
Proof.
  induction items as [| [key value] items IH]; intros k2c idx vars; simpl; [done |].
  destruct (k2c !! key) eqn:Hk; [apply IH |].
  etrans; [| apply IH]. by apply insert_subseteq.
Qed.



Lemma reassign_loop_tokens py items : forall k2c idx vars,
  (forall t, t ∈ vars.*1 -> t ∈ (reassign_loop py k2c idx vars items).2.*1)
  /\ (forall k, k ∈ items.*1 ->
        exists t, (reassign_loop py k2c idx vars items).1.1 !! k = Some t
                  /\ t ∈ (reassign_loop py k2c idx vars items).2.*1).
Proof.
  induction items as [| [key value] items IH]; intros k2c idx vars.
  - split; [done |]. intros k Hk. by apply elem_of_nil in Hk.
  - simpl.
    set (st := match k2c !! key with
               | Some _ => (k2c, idx)
               | None => (<[key := token idx]> k2c, idx + 1)
               end).
    assert (Hst : exists t, st.1 !! key = Some t).
    { subst st. destruct (k2c !! key) eqn:Hk; simpl; [eauto |].
      eexists. apply lookup_insert_eq. }
    destruct st as [k2c1 idx1]. destruct Hst as [t Ht]. simpl in Ht.
    rewrite Ht. simpl.
    destruct (IH k2c1 idx1 (Dict.set vars t (stringified py value))) as [IHv IHk].
    split.
    + intros t' Ht'. apply IHv, dict_set_keys. by right.
    + intros k Hk. apply elem_of_cons in Hk as [-> | Hk]; [| by apply IHk].
      exists t. split.
      * eapply lookup_weaken; [exact Ht | apply reassign_loop_mono].
      * apply IHv, dict_set_keys. by left.
Qed.

Lemma reassign_ok_inv py k2c data start k2c' out :
  reassign py k2c data start = Ok (k2c', out) ->
  exists d, mapping_of py data = Some d
            /\ k2c' = (reassign_loop py k2c start [] d).1.1
            /\ out = (reassign_loop py k2c start [] d).2.
Proof.
  intros H.
  assert (Hd : forall d, reassign py k2c (PDict d) start = Ok (k2c', out) ->
             k2c' = (reassign_loop py k2c start [] d).1.1
             /\ out = (reassign_loop py k2c start [] d).2).
  { intros d Hd. rewrite reassign_dict in Hd. by injection Hd as <- <-. }
  destruct data as [| b | n | s | l | d]; try done.
  - unfold reassign, mapping_of in *.
    destruct (json_loads py s) as [[| b | n | s' | l | d] |]; try done.
    exists d. split; [done |]. by apply Hd.
  - exists d. split; [done |]. by apply Hd.
Qed.



Lemma after_calls_mono py calls : forall k2c, k2c ⊆ after_calls py k2c calls.
Proof.
  unfold after_calls.
  induction calls as [| [data start] calls IH]; intros k2c; simpl; [done |].
  destruct (reassign py k2c data start) as [[k2c' out] | e] eqn:H; [| apply IH].
  etrans; [| apply IH].
  apply reassign_ok_inv in H as (d & _ & -> & _). apply reassign_loop_mono.
Qed.

(** C5. [reassign] only adds entries to the Field Mapping: the mapping
    before a call, and before any series of calls, is included in the
    mapping after it; and a call whose input holds a key the mapping
    knows returns that key's token among the keys of its result. *)
Theorem field_mapping_only_grows (py : PyLib) (k2c : gmap string string) :
  (forall calls, k2c ⊆ after_calls py k2c calls)
  /\ (forall data start k2c' out,
        reassign py k2c data start = Ok (k2c', out) ->
        k2c ⊆ k2c'
        /\ (forall k t, k2c !! k = Some t -> k2c' !! k = Some t)
        /\ (forall d k t, mapping_of py data = Some d -> k ∈ d.*1 ->
                          k2c !! k = Some t -> t ∈ out.*1)).
Proof.
  split; [intros calls; apply after_calls_mono |].
  intros data start k2c' out H.
  apply reassign_ok_inv in H as (d & Hd & -> & ->).
  assert (Hmono := reassign_loop_mono py d k2c start []).
  split; [done |]. split.
  - intros k t Hk. by eapply lookup_weaken.
  - intros d' k t Hd' Hin Hk. rewrite Hd in Hd'. injection Hd' as <-.
    destruct (proj2 (reassign_loop_tokens py d k2c start []) k Hin)
      as (t' & Ht' & Hout).
    by rewrite (lookup_weaken _ _ _ _ Hk Hmono) in Ht'; injection Ht' as <-.
Qed.

(** The token of ["input"] before and after a call of the decorator's
    [reassign], and in what the call returns. *)
Lemma field_mapping_only_grows_witness :
  exists k2c' out,
    reassign Mini.py Decorator.key_to_cvs
      (PDict [("input", PStr "i"); ("extra", PInt 1)]) Decorator.starting_index
    = Ok (k2c', out)
    /\ Decorator.key_to_cvs ⊆ k2c'
    /\ k2c' !! "input" = Some "cvs14"
    /\ "cvs14" ∈ out.*1.
Proof.
  eexists _, _. split; [apply reassign_dict |].
  destruct (proj2 (field_mapping_only_grows Mini.py Decorator.key_to_cvs)
              _ _ _ _ (reassign_dict Mini.py Decorator.key_to_cvs
                         [("input", PStr "i"); ("extra", PInt 1)]
                         Decorator.starting_index))
    as (Hsub & Hold & Hout).
  split; [exact Hsub |]. split.
  - apply Hold. vm_compute. reflexivity.
  - apply (Hout [("input", PStr "i"); ("extra", PInt 1)] "input");
      [reflexivity | | vm_compute; reflexivity].
    apply elem_of_cons. by left.
Defined.

(** C9. [reassign] raises exactly on an input that is neither a dict
    nor text decoding to a dict; what it raises is a [ValueError]
    ([JSONDecodeError] being one); text that decodes to a dict is
    treated as that dict. *)
Theorem reassign_rejects_exactly_non_mappings (py : PyLib)
    (k2c : gmap string string) (data : pyval) (start : Z) :
  raises (reassign py k2c data start) = negb (accepted py data)
  /\ (forall e, reassign py k2c data start = Raise e -> is_ValueError e = true)
  /\ (forall s d, data = PStr s -> json_loads py s = Some (PDict d) ->
        reassign py k2c data start = reassign py k2c (PDict d) start).
Proof.
  split; [| split].
  - destruct data as [| b | n | s | l | d]; try done.
    + unfold reassign, accepted.
      destruct (json_loads py s) as [[| b | n | s' | l | d] |]; try done.
      fold (reassign py k2c (PDict d) start). by rewrite reassign_dict.
    + by rewrite reassign_dict.
  - intros e. destruct data as [| b | n | s | l | d];
      try (unfold reassign; simpl; intros [= <-]; done).
    + unfold reassign.
      destruct (json_loads py s) as [[| b | n | s' | l | d] |];
        try (simpl; intros [= <-]; done).
      fold (reassign py k2c (PDict d) start). by rewrite reassign_dict.
    + by rewrite reassign_dict.
  - intros s d -> Hs. unfold reassign. by rewrite Hs.
Qed.

(** The text [{"a":1}] is processed as the dict it decodes to; the text
    [[1]] is refused with a [ValueError]. *)
Lemma reassign_rejects_exactly_non_mappings_witness :
  reassign Mini.py Tracing.key_to_cvs (PStr json_a1) 20
  = reassign Mini.py Tracing.key_to_cvs (PDict [("a", PInt 1)]) 20
  /\ is_ValueError (ValueError "Input must be a dict or JSON string representing a dict") = true.
Proof.
  split.
  - apply (proj2 (proj2 (reassign_rejects_exactly_non_mappings Mini.py
                           Tracing.key_to_cvs (PStr json_a1) 20)) json_a1);
      reflexivity.
  - apply (proj1 (proj2 (reassign_rejects_exactly_non_mappings Mini.py
                           Tracing.key_to_cvs (PStr "[1]") 20))).
    reflexivity.
Defined.

(** ** Value normalisation *)

(** C6, as stated, fails: text that looks like JSON but does not parse
    is stored stripped of its surrounding whitespace, not as it came. *)
Lemma unparsed_text_is_stored_stripped :
  Str.looks_like_json (Str.strip " {bad ") = true
  /\ json_loads Mini.py (Str.strip " {bad ") = None
  /\ Dict.get (assign Mini.py [] "k" (PStr " {bad ")) "k" = Some (PStr "{bad")
  /\ PStr "{bad" <> PStr " {bad ".
Proof. repeat split; try (vm_compute; reflexivity). discriminate. Qed.

(** C6, amended. What [assign] stores: null for null; for text that
    after stripping starts with a brace or bracket, the re-serialized
    parse when it parses and the stripped text when it does not; for a
    list or dict, its serialization.  The text [{"a":1}] is stored as
    [json.dumps({"a": 1})], which differs from it. *)
Theorem assign_stores_normalized_value (py : PyLib)
    (variables : list (string * pyval)) (variable : string) :
  Dict.get (assign py variables variable PNone) variable = Some PNone
  /\ (forall s v,
        Str.looks_like_json (Str.strip s) = true ->
        json_loads py (Str.strip s) = Some v ->
        Dict.get (assign py variables variable (PStr s)) variable
        = Some (PStr (json_dumps py v)))
  /\ (forall s,
        Str.looks_like_json (Str.strip s) = true ->
        json_loads py (Str.strip s) = None ->
        Dict.get (assign py variables variable (PStr s)) variable
        = Some (PStr (Str.strip s)))
  /\ (forall l,
        Dict.get (assign py variables variable (PList l)) variable
        = Some (PStr (json_dumps py (PList l))))
  /\ (forall d,
        Dict.get (assign py variables variable (PDict d)) variable
        = Some (PStr (json_dumps py (PDict d))))
  /\ (Dict.get (assign Mini.py variables variable (PStr json_a1)) variable
      = Some (PStr (json_dumps Mini.py (PDict [("a", PInt 1)])))
      /\ json_dumps Mini.py (PDict [("a", PInt 1)]) <> json_a1).
Proof.
  unfold assign. rewrite !dict_get_set_eq.
  split; [done |]. split; [| split; [| split; [| split]]].
  - intros s v Hlooks Hparse. rewrite dict_get_set_eq. simpl.
    by rewrite Hlooks, Hparse.
  - intros s Hlooks Hparse. rewrite dict_get_set_eq. simpl.
    by rewrite Hlooks, Hparse.
  - intros l. by rewrite dict_get_set_eq.
  - intros d. by rewrite dict_get_set_eq.
  - split; [vm_compute; reflexivity | vm_compute; discriminate].
Qed.

(** The text [ [1] ], with a blank on either side, and the text
    [ {bad ], through [assign]. *)
Lemma assign_stores_normalized_value_witness :
  Dict.get (assign Mini.py [] "k" (PStr " [1] ")) "k" = Some (PStr "[1]")
  /\ Dict.get (assign Mini.py [] "k" (PStr " {bad ")) "k" = Some (PStr "{bad").
Proof.
  split.
  - apply (proj1 (proj2 (assign_stores_normalized_value Mini.py [] "k"))
             " [1] " (PList [PInt 1])); reflexivity.
  - apply (proj1 (proj2 (proj2 (assign_stores_normalized_value Mini.py [] "k")))
             " {bad "); reflexivity.
Defined.

(** ** The probe for [resp_id] *)






(** ** The decorator *)

Lemma wrapper_returns py network k2c source args kwargs text printed_output :
  exists r,
    Decorator.wrapper py network k2c source args kwargs
      (Decorator.Returns text printed_output) = Ok r
    /\ Decorator.returned r = text
    /\ Decorator.output r = Decorator.choose_output text printed_output
    /\ Decorator.CapturedOutput (Decorator.output r) ∈ Decorator.lines r.
Proof.
  unfold Decorator.wrapper. rewrite reassign_dict. simpl.
  eexists. split; [reflexivity |]. simpl.
  split; [done |]. split; [done |].
  rewrite !elem_of_cons. auto.
Qed.

(** C8, as stated, fails: a callable that prints [hello] and returns
    [None] leaves [hello] followed by a line break in the buffer; the
    output that is logged is [hello], not the captured text. *)
Lemma logged_output_is_not_the_captured_text :
  exists r,
    Decorator.wrapper Mini.py None Decorator.key_to_cvs PNone [] []
      (Decorator.Returns (Decorator.Plain PNone) (printed "hello")) = Ok r
    /\ Decorator.output r = Decorator.Plain (PStr "hello")
    /\ Decorator.output r <> Decorator.Plain (PStr (printed "hello")).
Proof.
  eexists. split; [vm_compute; reflexivity |].
  split; [reflexivity | vm_compute; discriminate].
Qed.

(** C8, amended. The output that [wrapper] logs is the return value of
    the callable when that is truthy, and otherwise the text captured
    from standard output with the whitespace at both ends removed; the
    return value is handed back as it is.  A callable that prints
    [hello] and returns [None] logs [hello]. *)
Theorem wrapper_logs_return_value_or_stripped_capture (py : PyLib)
    (network : option string) (k2c : gmap string string) (source : pyval)
    (args : list pyval) (kwargs : list (string * pyval)) :
  (forall text printed_output,
     exists r,
       Decorator.wrapper py network k2c source args kwargs
         (Decorator.Returns text printed_output) = Ok r
       /\ Decorator.returned r = text
       /\ Decorator.output r
          = (if Decorator.is_true text then text
             else Decorator.Plain (PStr (Str.strip printed_output)))
       /\ Decorator.CapturedOutput (Decorator.output r) ∈ Decorator.lines r)
  /\ (exists r,
        Decorator.wrapper py network k2c source args kwargs
          (Decorator.Returns (Decorator.Plain PNone) (printed "hello")) = Ok r
        /\ Decorator.output r = Decorator.Plain (PStr "hello")).
Proof.
  split.
  - intros text printed_output.
    destruct (wrapper_returns py network k2c source args kwargs text printed_output)
      as (r & Hr & Hret & Hout & Hline).
    exists r. split; [done |]. split; [done |]. split; [exact Hout | done].
  - destruct (wrapper_returns py network k2c source args kwargs
                (Decorator.Plain PNone) (printed "hello"))
      as (r & Hr & _ & Hout & _).
    exists r. split; [done |]. rewrite Hout. vm_compute. reflexivity.
Qed.

(** ** The exporter *)






